(** * Employee allowance calculation ([lib/model/user_allowance.js])

  A shallow embedding of the [UserAllowance] class: the calendar
  arithmetic that [moment] and the ECMAScript [Date] object provide,
  the JavaScript number operations the getters use, the getters
  themselves, and the loading of the module: the Joi schemas it builds
  first, and the constructor and the asynchronous resolver
  [promise_allowance] that validate against them. *)

From Stdlib Require Import ZArith QArith Qabs Qround Lia Lqa Bool.
From stdpp Require Import base option list strings.

Local Open Scope Z_scope.

(** ** Calendar arithmetic

  A [moment] created with [moment.utc] wraps a [Date]: a number of
  milliseconds since 1970-01-01T00:00:00Z.  The definitions follow the
  abstract operations of ECMA-262 (Day, DayFromYear, TimeFromYear,
  YearFromTime) on which [Date.prototype.getUTCFullYear] and
  [Date.UTC] are defined. *)
Module Calendar.

Definition msPerDay : Z := 86400000.

Definition Day (t : Z) : Z := t / msPerDay.

Definition DayFromYear (y : Z) : Z :=
  365 * (y - 1970) + (y - 1969) / 4 - (y - 1901) / 100 + (y - 1601) / 400.

Definition TimeFromYear (y : Z) : Z := msPerDay * DayFromYear y.

(** ECMA-262 defines YearFromTime(t) as the largest [y] with
    [TimeFromYear y <= t].  The mean length of a Gregorian year is
    146097/400 days, which places that [y] within one of the
    estimate. *)
Definition YearFromDay (d : Z) : Z :=
  let y := 1970 + (400 * d) / 146097 in
  if d <? DayFromYear y then y - 1
  else if DayFromYear (y + 1) <=? d then y + 1
  else y.

Definition YearFromTime (t : Z) : Z := YearFromDay (Day t).

Definition InLeapYear (y : Z) : bool :=
  (y mod 4 =? 0) && (negb (y mod 100 =? 0) || (y mod 400 =? 0)).

Definition DaysInYear (y : Z) : Z := if InLeapYear y then 366 else 365.

(** Days between January 1st and the first day of month [m] (1..12). *)
Definition DayWithinYear (leap : bool) (m : Z) : Z :=
  let l := if leap then 1 else 0 in
  match m with
  | 1 => 0
  | 2 => 31
  | 3 => 59 + l
  | 4 => 90 + l
  | 5 => 120 + l
  | 6 => 151 + l
  | 7 => 181 + l
  | 8 => 212 + l
  | 9 => 243 + l
  | 10 => 273 + l
  | 11 => 304 + l
  | _ => 334 + l
  end.

(** [Date.UTC(y, m - 1, d)]: midnight UTC of a calendar date. *)
Definition utc_date (y m d : Z) : Z :=
  msPerDay * (DayFromYear y + DayWithinYear (InLeapYear y) m + (d - 1)).

(** [moment#year()]. *)
Definition year (m : Z) : Z := YearFromTime m.

(** [moment#startOf('year')]: January 1st, 00:00:00.000. *)
Definition startOf_year (m : Z) : Z := TimeFromYear (year m).

(** [moment#endOf('year')]: December 31st, 23:59:59.999, that is one
    millisecond before the start of the next year. *)
Definition endOf_year (m : Z) : Z := TimeFromYear (year m + 1) - 1.

(** [a.diff(b, 'days')]: the difference in milliseconds divided by
    the length of a day and truncated towards zero ([absFloor]). *)
Definition diff_days (a b : Z) : Z := (a - b) ÷ msPerDay.

End Calendar.

(** ** JavaScript numbers

    A number is a finite value, one of the two infinities or NaN.
    Finite values are exact rationals: the rounding of binary64
    arithmetic is outside the model, and so is the sign of zero (which
    [===] does not observe).  A zero divisor counts as [+0]; the only
    divisor in this class is the result of [moment#diff], which never
    returns [-0]. *)
Module JS.

Inductive number : Type :=
| Num (q : Q)
| PosInf
| NegInf
| NaN.

Definition of_sign (c : comparison) : number :=
  match c with
  | Gt => PosInf
  | Lt => NegInf
  | Eq => NaN
  end.

(** [x + y] *)
Definition add (x y : number) : number :=
  match x, y with
  | NaN, _ | _, NaN => NaN
  | Num a, Num b => Num (a + b)%Q
  | PosInf, NegInf | NegInf, PosInf => NaN
  | PosInf, _ | _, PosInf => PosInf
  | NegInf, _ | _, NegInf => NegInf
  end.

(** [x * y] *)
Definition mul (x y : number) : number :=
  match x, y with
  | NaN, _ | _, NaN => NaN
  | Num a, Num b => Num (a * b)%Q
  | Num a, PosInf | PosInf, Num a => of_sign (a ?= 0)%Q
  | Num a, NegInf | NegInf, Num a => of_sign (CompOpp (a ?= 0)%Q)
  | PosInf, PosInf | NegInf, NegInf => PosInf
  | PosInf, NegInf | NegInf, PosInf => NegInf
  end.

(** [x / y] *)
Definition div (x y : number) : number :=
  match x, y with
  | NaN, _ | _, NaN => NaN
  | Num a, Num b =>
      if Qeq_bool b 0 then of_sign (a ?= 0)%Q else Num (a / b)%Q
  | Num _, _ => Num 0%Q
  | PosInf, Num b => match (b ?= 0)%Q with Lt => NegInf | _ => PosInf end
  | NegInf, Num b => match (b ?= 0)%Q with Lt => PosInf | _ => NegInf end
  | _, _ => NaN
  end.

(** [Math.round]: the nearest integer, halves going up. *)
Definition round (q : Q) : Z := Qfloor (q + (1 # 2))%Q.

Definition Math_round (x : number) : number :=
  match x with
  | Num q => Num (inject_Z (round q))
  | other => other
  end.

(** [x.toFixed(1)] read back as a number, as multiplying the string by
    [-1] does.  Below 10^21 the string holds the nearest tenth of the
    magnitude (the larger one on a tie) after the sign; from 10^21 on,
    and for the infinities and NaN, it is the ordinary rendering of
    [x], which reads back as [x]. *)
Definition toFixed1 (x : number) : number :=
  match x with
  | Num q =>
      let a := Qabs q in
      if Qle_bool (inject_Z (10 ^ 21)) a then Num q
      else
        let n := (inject_Z (Qfloor (a * 10 + (1 # 2))) / 10)%Q in
        match (q ?= 0)%Q with
        | Lt => Num (- n)%Q
        | _ => Num n
        end
  | other => other
  end.

(** [x === y] *)
Definition strict_equal (x y : number) : bool :=
  match x, y with
  | Num a, Num b => Qeq_bool a b
  | PosInf, PosInf | NegInf, NegInf => true
  | _, _ => false
  end.

(** [x <= y] *)
Definition less_equal (x y : number) : bool :=
  match x, y with
  | NaN, _ | _, NaN => false
  | Num a, Num b => Qle_bool a b
  | NegInf, _ | _, PosInf => true
  | _, _ => false
  end.

(** [Number.isFinite] *)
Definition isFinite (x : number) : bool :=
  match x with
  | Num _ => true
  | _ => false
  end.

End JS.

Notation "x === y" := (JS.strict_equal x y = true) (at level 70, no associativity).

(** ** The employee record and the calculator

    The employee record exposes [start_date], an optional [end_date]
    (absent while the employee is still employed), the department with
    its allowance and accrual flag, and [my_leaves], which is undefined
    until the leave details have been loaded.  Dates are given by the
    instant [moment.utc] makes of them.  [start_date] is a required
    column of the record, and a date is truthy, so a guard on its
    presence always passes. *)

(** An argument that a schema expects to be a number: left out, a
    number (or a string that Joi converts to one), or anything else. *)
Inductive numeric_arg : Type :=
| Absent
| Numeric (n : JS.number)
| NonNumeric.

Module Department.
Record t : Type := {
  allowance : numeric_arg;
  is_accrued_allowance : bool  (* truthiness of the flag *)
}.
End Department.

Record User {Leaves : Type} : Type := {
  start_date : Z;
  end_date : option Z;
  department : Department.t;
  my_leaves : option Leaves
}.
Arguments User : clear implicits.

(** The fields of a [UserAllowance] instance.  The numbers have passed
    validation and are finite.  [_now] is a moment: for the instance as
    the constructor leaves it, ([Moment := nat]) a reference into the
    store of moment objects; for the getters ([Moment := Z]) the
    instant that object holds when the getter is read.  The getters
    work on a clone of [_now] and never change it. *)
Record UserAllowance {Leaves Moment : Type} : Type := {
  _user : User Leaves;
  _number_of_days_taken_from_allowance : Q;
  _manual_adjustment : Q;
  _carry_over : Q;
  _nominal_allowance : Q;
  _now : Moment
}.
Arguments UserAllowance : clear implicits.

Section Calculator.
Context {Leaves : Type}.
Implicit Type this : UserAllowance Leaves Z.
Import Calendar.

Definition user this := _user this.
Definition number_of_days_taken_from_allowance this := _number_of_days_taken_from_allowance this.
Definition manual_adjustment this := _manual_adjustment this.
Definition carry_over this := _carry_over this.
Definition nominal_allowance this := _nominal_allowance this.

Definition is_accrued_allowance this : bool :=
  Department.is_accrued_allowance (department (user this)).

(** The employee is in employment for the whole year of [_now]:
    the condition under which no proration is applied. *)
Definition employed_whole_year this : bool :=
  negb (year (_now this) =? year (start_date (user this)))
  && match end_date (user this) with
     | None => true
     | Some e => year e >? year (_now this)
     end.

(** Start of the employment window within the year of [_now].  The
    getters [employement_range_adjustment] and [accrued_adjustment]
    each compute the window, by the same two expressions. *)
Definition period_starts_at this : Z :=
  if year (start_date (user this)) =? year (_now this)
  then start_date (user this)
  else startOf_year (_now this).

(** End of the employment window within the year of [_now]. *)
Definition period_ends_at this : Z :=
  match end_date (user this) with
  | Some e => if year e <=? year (_now this) then e else endOf_year (_now this)
  | None => endOf_year (_now this)
  end.

Definition employement_range_adjustment this : Q :=
  if employed_whole_year this then 0%Q
  else
    (-1 * (nominal_allowance this
           - inject_Z (JS.round (nominal_allowance this
                                 * inject_Z (diff_days (period_ends_at this) (period_starts_at this))
                                 / 365))))%Q.

Definition total_number_of_days_in_allowance this : Q :=
  (nominal_allowance this
   + carry_over this
   + manual_adjustment this
   + employement_range_adjustment this)%Q.

Definition days_in_period this : Z :=
  diff_days (period_ends_at this) (period_starts_at this).

(** [nominal_allowance + manual_adjustment + employement_range_adjustment],
    the allowance that accrues over the period. *)
Definition allowance_for_period this : Q :=
  (nominal_allowance this
   + manual_adjustment this
   + employement_range_adjustment this)%Q.

Definition accrual_delta this : JS.number :=
  JS.div (JS.Num (allowance_for_period this
                  * inject_Z (diff_days (period_ends_at this) (_now this)))%Q)
         (JS.Num (inject_Z (days_in_period this))).

Definition accrued_adjustment this : JS.number :=
  JS.mul (JS.Num (-1)%Q)
         (JS.toFixed1 (JS.div (JS.Math_round (JS.mul (accrual_delta this) (JS.Num 2%Q)))
                              (JS.Num 2%Q))).

Definition number_of_days_available_in_allowance this : JS.number :=
  if year (start_date (user this)) >? year (_now this) then JS.Num 0%Q
  else
    JS.add (JS.Num (total_number_of_days_in_allowance this
                    - number_of_days_taken_from_allowance this)%Q)
           (if is_accrued_allowance this then accrued_adjustment this else JS.Num 0%Q).

End Calculator.

(** ** Failures, the object store and sequencing

    [Joi.attempt] throws a [ValidationError] that carries the message
    given by the caller, the key of the first parameter that failed (in
    the order of the schema; none when the argument bag itself is
    missing) and Joi's code for the failure.  A call of something that
    is not a function throws a [TypeError], a failed assertion of Joi a
    plain [Error].  A failure of one of the employee's data providers
    is passed on as it is. *)
Inductive Error : Type :=
| ValidationError (message : string) (key : option string) (code : string)
| TypeError (message : string)
| PlainError (message : string)
| CollaboratorError (info : string).

Inductive result (A : Type) : Type :=
| Ok (a : A)
| Err (e : Error).
Arguments Ok {A} a.
Arguments Err {A} e.

Definition and_then {A B} (r : result A) (k : A -> result B) : result B :=
  match r with
  | Ok a => k a
  | Err e => Err e
  end.

(** A call to one of the methods of the employee object. *)
Inductive Call : Type :=
| reload_with_leave_details_call (year : Z)
| promise_adjustment_and_carry_over_for_year_call (year : Z)
| calculate_number_of_days_taken_from_allowance_call (yyyy : Z).

(** Moment objects are mutable and are passed by reference: the store
    maps a reference to the instant its object holds.  [calls] records
    the calls made to the employee's methods, oldest first. *)
Record State : Type := {
  store : list Z;
  calls : list Call
}.

(** The instant held by the object [l].  Every reference the program
    holds is to an object of the store; the default is for references
    that are not. *)
Definition deref (h : list Z) (l : nat) : Z := default 0 (h !! l).

Definition Flow (A : Type) : Type := State -> result A * State.

Definition ret {A} (a : A) : Flow A := fun st => (Ok a, st).

Definition throw {A} (e : Error) : Flow A := fun st => (Err e, st).

Definition bind {A B} (m : Flow A) (k : A -> Flow B) : Flow B :=
  fun st =>
    match m st with
    | (Ok a, st') => k a st'
    | (Err e, st') => (Err e, st')
    end.

Notation "x <- m ;; k" := (bind m (fun x => k))
  (at level 100, m at next level, right associativity).

(** [moment.utc()]: a new moment object holding the current instant. *)
Definition moment_utc (current : Z) : Flow nat :=
  fun st => (Ok (length (store st)),
             {| store := store st ++ [current]; calls := calls st |}).

(** [m.startOf('year')]: changes the object [m] and returns it. *)
Definition startOf_year_in_place (m : nat) : Flow nat :=
  fun st => (Ok m,
             {| store := <[m := Calendar.startOf_year (deref (store st) m)]> (store st);
                calls := calls st |}).

Definition read (m : nat) : Flow Z := fun st => (Ok (deref (store st) m), st).

(** ** Arguments

    A date argument is left out, a moment object, an object that is not
    a moment, or not an object at all.  The employee is left out, an
    employee object, or something that is not an object. *)
Inductive date_arg : Type :=
| NoDate
| IsMoment (m : nat)
| NotMoment
| NotObject.

Inductive user_arg {Leaves : Type} : Type :=
| NoUser
| IsUser (u : User Leaves)
| NotAnObject.
Arguments user_arg : clear implicits.

(** The argument bag of the constructor. *)
Module Args.
Record t {Leaves : Type} : Type := {
  user : user_arg Leaves;
  number_of_days_taken_from_allowance : numeric_arg;
  manual_adjustment : numeric_arg;
  carry_over : numeric_arg;
  nominal_allowance : numeric_arg;
  now : date_arg
}.
Arguments t : clear implicits.
End Args.

(** The argument bag of [promise_allowance]. *)
Module PromiseArgs.
Record t {Leaves : Type} : Type := {
  year : date_arg;
  user : user_arg Leaves;
  now : date_arg;
  forceNow : option bool
}.
Arguments t : clear implicits.

Record validated {Leaves : Type} : Type := {
  v_year : nat;
  v_user : User Leaves;
  v_now : nat;
  v_forceNow : bool
}.
Arguments validated : clear implicits.
End PromiseArgs.

(** The instants [moment.utc()] gives at the places where the resolver
    and the constructor it calls read the clock. *)
Record Clock : Type := {
  at_year_default : Z;   (* default of [year] in [schema_promise_allowance] *)
  at_now_default : Z;    (* default of [now] in [schema_promise_allowance] *)
  at_resolution : Z;     (* [moment.utc().year()] in the last step *)
  at_construction : Z    (* default of [now] in [scheme_constructor] *)
}.

(** How a call of [promise_allowance] ends: something is thrown before
    a promise is returned, or the promise it returns is rejected or
    fulfilled. *)
Inductive Outcome (A : Type) : Type :=
| Thrown (e : Error)
| Rejected (e : Error)
| Fulfilled (a : A).
Arguments Thrown {A} e.
Arguments Rejected {A} e.
Arguments Fulfilled {A} a.

(** ** Joi

    The sources do not fix the release of Joi the module runs with.
    Two generations of its interface differ in what the module uses.
    Up to release 15 a schema has no method [custom], and [default]
    takes the description of a function default as its second argument.
    From release 16 on [custom] exists, and the second argument of
    [default] has to be an object of options. *)
Inductive Release : Type :=
| Legacy   (* up to release 15 *)
| Modern.  (* release 16 and later *)

(** A built schema is given by what [Joi.attempt] does with a value
    under it: for a key of an object, under the message of the caller
    and the name of the key. *)
Definition NumberSchema : Type := string -> string -> numeric_arg -> Flow Q.
Definition DateSchema : Type := string -> string -> Z -> date_arg -> Flow nat.

Definition MAX_SAFE_INTEGER : Z := 2 ^ 53 - 1.

(** [Joi.number().required()]: NaN, the infinities and numbers outside
    the safe integer range are refused as well. *)
Definition Joi_number_required : NumberSchema :=
  fun message key v =>
    match v with
    | Absent => throw (ValidationError message (Some key) "any.required")
    | NonNumeric | Numeric JS.NaN =>
        throw (ValidationError message (Some key) "number.base")
    | Numeric JS.PosInf | Numeric JS.NegInf =>
        throw (ValidationError message (Some key) "number.infinity")
    | Numeric (JS.Num q) =>
        if Qle_bool (Qabs q) (inject_Z MAX_SAFE_INTEGER) then ret q
        else throw (ValidationError message (Some key) "number.unsafe")
    end.

(** A schema of objects that is not [required]: a value left out passes
    as it is. *)
Definition ObjectSchema : Type := string -> string -> date_arg -> Flow (option nat).

(** [Joi.object().custom(value => moment.isMoment(value) ? value :
    helpers.error('any.invalid'))]: the call of a method that a legacy
    schema does not have.  Where the method exists, a moment is handed on
    as the same object. *)
Definition Joi_object_custom (release : Release) : result ObjectSchema :=
  match release with
  | Legacy => Err (TypeError "Joi.object(...).custom is not a function")
  | Modern =>
      Ok (fun message key d =>
            match d with
            | NoDate => ret None
            | IsMoment m => ret (Some m)
            | NotMoment => throw (ValidationError message (Some key) "any.invalid")
            | NotObject => throw (ValidationError message (Some key) "object.base")
            end)
  end.

(** [schema.default(() => moment.utc(), description)]: a string as
    second argument is the description a legacy release asks for, and is
    refused by the assertion on the options of a modern release.  Where
    it is accepted, a value left out becomes a new moment. *)
Definition Joi_default (release : Release) (schema : ObjectSchema) (description : string)
  : result DateSchema :=
  match release with
  | Legacy =>
      Ok (fun message key current d =>
            v <- schema message key d ;;
            match v with
            | Some m => ret m
            | None => moment_utc current
            end)
  | Modern => Err (PlainError "Options must be of type object")
  end.

Section UserAllowanceModule.
Context {Leaves : Type}.

Definition UserSchema : Type := string -> string -> user_arg Leaves -> Flow (User Leaves).
Definition ConstructorSchema : Type :=
  string -> Z -> option (Args.t Leaves) -> Flow (UserAllowance Leaves nat).
Definition PromiseSchema : Type :=
  string -> Clock -> option (PromiseArgs.t Leaves) -> Flow (PromiseArgs.validated Leaves).

(** [Joi.object().required()] *)
Definition Joi_object_required : UserSchema :=
  fun message key u =>
    match u with
    | NoUser => throw (ValidationError message (Some key) "any.required")
    | IsUser u => ret u
    | NotAnObject => throw (ValidationError message (Some key) "object.base")
    end.

(** *** The constants of the module, in the order they are evaluated
    when the module is loaded *)

Definition schema_user (release : Release) : result UserSchema :=
  Ok Joi_object_required.

Definition schema_year (release : Release) : result DateSchema :=
  and_then (Joi_object_custom release) (fun schema =>
  Joi_default release schema "Default year is current one").

Definition schema_now (release : Release) : result DateSchema :=
  and_then (Joi_object_custom release) (fun schema =>
  Joi_default release schema "Default is UTC one not from company specific").

(** [Joi.object({year, user, now, forceNow}).required()] over built
    schemas; [forceNow] is [Joi.boolean().default(false)]. *)
Definition schema_promise_allowance
    (schema_year : DateSchema) (schema_user : UserSchema) (schema_now : DateSchema)
  : PromiseSchema :=
  fun message clock args =>
    match args with
    | None => throw (ValidationError message None "any.required")
    | Some a =>
        y <- schema_year message "year" (at_year_default clock) (PromiseArgs.year a) ;;
        u <- schema_user message "user" (PromiseArgs.user a) ;;
        n <- schema_now message "now" (at_now_default clock) (PromiseArgs.now a) ;;
        ret {| PromiseArgs.v_year := y;
               PromiseArgs.v_user := u;
               PromiseArgs.v_now := n;
               PromiseArgs.v_forceNow := default false (PromiseArgs.forceNow a) |}
    end.

(** [Joi.object({user, ..., now}).required()] over built schemas.  The
    validated arguments come under the names of the fields of the
    instance they are copied to. *)
Definition scheme_constructor (schema_user : UserSchema) (schema_now : DateSchema)
  : ConstructorSchema :=
  fun message current args =>
    match args with
    | None => throw (ValidationError message None "any.required")
    | Some a =>
        u <- schema_user message "user" (Args.user a) ;;
        taken <- Joi_number_required message "number_of_days_taken_from_allowance"
                   (Args.number_of_days_taken_from_allowance a) ;;
        adjustment <- Joi_number_required message "manual_adjustment"
                        (Args.manual_adjustment a) ;;
        carried <- Joi_number_required message "carry_over" (Args.carry_over a) ;;
        nominal <- Joi_number_required message "nominal_allowance"
                     (Args.nominal_allowance a) ;;
        n <- schema_now message "now" current (Args.now a) ;;
        ret {| _user := u;
               _number_of_days_taken_from_allowance := taken;
               _manual_adjustment := adjustment;
               _carry_over := carried;
               _nominal_allowance := nominal;
               _now := n |}
    end.

(** The schemas the class is closed over. *)
Record Schemas : Type := {
  the_schema_promise_allowance : PromiseSchema;
  the_scheme_constructor : ConstructorSchema
}.

(** Loading the module evaluates its constants one after the other;
    the class is defined when all of them are built. *)
Definition load (release : Release) : result Schemas :=
  and_then (schema_user release) (fun user =>
  and_then (schema_year release) (fun year =>
  and_then (schema_now release) (fun now =>
  Ok {| the_schema_promise_allowance := schema_promise_allowance year user now;
        the_scheme_constructor := scheme_constructor user now |}))).

(** *** The class *)

Definition UserAllowance_constructor (schemas : Schemas) (current : Z)
    (args : option (Args.t Leaves)) : Flow (UserAllowance Leaves nat) :=
  the_scheme_constructor schemas
    "Failed parameters validation for UserAllowance constructor" current args.

(** The methods of the employee object.  They are given the instant of
    the [year] object (the last one its four-digit year) and leave the
    moment objects as they are; [reload_with_leave_details] returns the
    employee with the leave details loaded. *)
Variable reload_with_leave_details : User Leaves -> Z -> result (User Leaves).
Variable promise_adjustment_and_carry_over_for_year :
  User Leaves -> Z -> result (numeric_arg * numeric_arg).
Variable calculate_number_of_days_taken_from_allowance :
  User Leaves -> Z -> result numeric_arg.

Definition call {A} (c : Call) (r : result A) : Flow A :=
  fun st => (r, {| store := store st; calls := calls st ++ [c] |}).

(** The steps of the chain of [then].  The first one is part of the
    chain only when the leave details are not loaded. *)
Definition load_leave_details (args : PromiseArgs.validated Leaves) : Flow (User Leaves) :=
  let user := PromiseArgs.v_user args in
  match my_leaves user with
  | None =>
      y <- read (PromiseArgs.v_year args) ;;
      call (reload_with_leave_details_call y) (reload_with_leave_details user y)
  | Some _ => ret user
  end.

Definition fetch_adjustment_and_carry_over (args : PromiseArgs.validated Leaves)
    (user : User Leaves) : Flow (numeric_arg * numeric_arg) :=
  y <- read (PromiseArgs.v_year args) ;;
  call (promise_adjustment_and_carry_over_for_year_call y)
       (promise_adjustment_and_carry_over_for_year user y).

Definition count_days_taken (args : PromiseArgs.validated Leaves) (user : User Leaves)
  : Flow numeric_arg :=
  y <- read (PromiseArgs.v_year args) ;;
  call (calculate_number_of_days_taken_from_allowance_call (Calendar.year y))
       (calculate_number_of_days_taken_from_allowance user (Calendar.year y)).

(** The [now] of the argument bag of the constructor.  A validated
    [now] or [year] is an object, hence truthy. *)
Definition choose_now (clock : Clock) (args : PromiseArgs.validated Leaves) : Flow date_arg :=
  if PromiseArgs.v_forceNow args then ret (IsMoment (PromiseArgs.v_now args))
  else
    y <- read (PromiseArgs.v_year args) ;;
    if negb (Calendar.year y =? Calendar.year (at_resolution clock))
    then m <- startOf_year_in_place (PromiseArgs.v_year args) ;; ret (IsMoment m)
    else ret NoDate.

Definition flow (schemas : Schemas) (clock : Clock) (args : PromiseArgs.validated Leaves)
  : Flow (UserAllowance Leaves nat) :=
  user <- load_leave_details args ;;
  adjustment_and_coa <- fetch_adjustment_and_carry_over args user ;;
  taken <- count_days_taken args user ;;
  now_arg <- choose_now clock args ;;
  UserAllowance_constructor schemas (at_construction clock)
    (Some {| Args.user := IsUser user;
             Args.manual_adjustment := adjustment_and_coa.1;
             Args.number_of_days_taken_from_allowance := taken;
             Args.carry_over := adjustment_and_coa.2;
             Args.nominal_allowance := Department.allowance (department user);
             Args.now := now_arg |}).

Definition promise_allowance (schemas : Schemas) (clock : Clock)
    (args : option (PromiseArgs.t Leaves)) (st : State)
  : Outcome (UserAllowance Leaves nat) * State :=
  match the_schema_promise_allowance schemas
          "Failed to validate parameters for promise_allowance" clock args st with
  | (Err e, st') => (Thrown e, st')
  | (Ok validated, st') =>
      match flow schemas clock validated st' with
      | (Err e, st'') => (Rejected e, st'')
      | (Ok this, st'') => (Fulfilled this, st'')
      end
  end.

(** *** A caller of the module

    [const UserAllowance = require('.../user_allowance')] followed by
    [new UserAllowance(args)], respectively by
    [UserAllowance.promise_allowance(args)]: what is thrown while the
    module is loaded reaches the caller before the class does. *)
Definition require_and_construct (release : Release) (current : Z)
    (args : option (Args.t Leaves)) : Flow (UserAllowance Leaves nat) :=
  fun st =>
    match load release with
    | Err e => (Err e, st)
    | Ok schemas => UserAllowance_constructor schemas current args st
    end.

Definition require_and_promise_allowance (release : Release) (clock : Clock)
    (args : option (PromiseArgs.t Leaves)) (st : State)
  : Outcome (UserAllowance Leaves nat) * State :=
  match load release with
  | Err e => (Thrown e, st)
  | Ok schemas => promise_allowance schemas clock args st
  end.

End UserAllowanceModule.

(** ** Vocabulary of the statements *)

(** The instance [this] read at another evaluation instant. *)
Definition with_now {Leaves} (this : UserAllowance Leaves Z) (t : Z) : UserAllowance Leaves Z :=
  {| _user := _user this;
     _number_of_days_taken_from_allowance := _number_of_days_taken_from_allowance this;
     _manual_adjustment := _manual_adjustment this;
     _carry_over := _carry_over this;
     _nominal_allowance := _nominal_allowance this;
     _now := t |}.

(** The instance [this] of an employee with another start date. *)
Definition with_start_date {Leaves} (this : UserAllowance Leaves Z) (s : Z)
  : UserAllowance Leaves Z :=
  {| _user := {| start_date := s;
                 end_date := end_date (_user this);
                 department := department (_user this);
                 my_leaves := my_leaves (_user this) |};
     _number_of_days_taken_from_allowance := _number_of_days_taken_from_allowance this;
     _manual_adjustment := _manual_adjustment this;
     _carry_over := _carry_over this;
     _nominal_allowance := _nominal_allowance this;
     _now := _now this |}.

(** A number of half days, up to 2^19 days either way.  On such
    numbers the sums, products and roundings of the getters are the
    same in binary64 as on exact numbers: every product with a number
    of days stays below 2^53. *)
Definition half_days (q : Q) : bool :=
  let h := Qred (q * 2) in
  (Qden h =? 1)%positive && (Z.abs (Qnum h) <=? 2 ^ 20).

(** What is thrown while the module is loaded. *)
Definition load_error (release : Release) : Error :=
  match release with
  | Legacy => TypeError "Joi.object(...).custom is not a function"
  | Modern => PlainError "Options must be of type object"
  end.


(** ** Sample employees *)
Module Examples.
Import Calendar.

Definition accrual_department : Department.t :=
  {| Department.allowance := Numeric (JS.Num 20);
     Department.is_accrued_allowance := true |}.

Definition plain_department : Department.t :=
  {| Department.allowance := Numeric (JS.Num 28);
     Department.is_accrued_allowance := false |}.

(** Joined on 1 July 2023 and still employed. *)
Definition mid_year_starter : User unit :=
  {| start_date := utc_date 2023 7 1; end_date := None;
     department := plain_department; my_leaves := None |}.

(** Joined in 2019 and still employed. *)
Definition long_serving : User unit :=
  {| start_date := utc_date 2019 4 15; end_date := None;
     department := plain_department; my_leaves := None |}.

(** Joined an accrual-based department on 1 December 2023. *)
Definition late_starter : User unit :=
  {| start_date := utc_date 2023 12 1; end_date := None;
     department := accrual_department; my_leaves := None |}.

(** Joined an accrual-based department on 1 March 2023 and left the
    same day. *)
Definition one_day_employee : User unit :=
  {| start_date := utc_date 2023 3 1; end_date := Some (utc_date 2023 3 1);
     department := accrual_department; my_leaves := None |}.

(** Joined an accrual-based department on 1 March 2023 and still
    employed. *)
Definition accrual_starter : User unit :=
  {| start_date := utc_date 2023 3 1; end_date := None;
     department := accrual_department; my_leaves := None |}.

Definition instance (u : User unit) (nominal adjustment taken : Q) (now : Z)
  : UserAllowance unit Z :=
  {| _user := u;
     _number_of_days_taken_from_allowance := taken;
     _manual_adjustment := adjustment;
     _carry_over := 0;
     _nominal_allowance := nominal;
     _now := now |}.

(** Joined on 1 January 2023 and still employed. *)
Definition january_starter : User unit :=
  {| start_date := utc_date 2023 1 1; end_date := None;
     department := plain_department; my_leaves := None |}.

(** Joined in 2019 and left on 30 June 2022. *)
Definition former_employee : User unit :=
  {| start_date := utc_date 2019 4 15; end_date := Some (utc_date 2022 6 30);
     department := plain_department; my_leaves := None |}.

(** The clock on 3 November 2023, around 09:00 UTC. *)
Definition clock_2023 : Clock :=
  {| at_year_default := utc_date 2023 11 3 + 32400000;
     at_now_default := utc_date 2023 11 3 + 32400001;
     at_resolution := utc_date 2023 11 3 + 32400250;
     at_construction := utc_date 2023 11 3 + 32400251 |}.

(** Data providers that succeed: the leave details get loaded, there is
    no adjustment, 2 days are carried over and 3 days were taken. *)
Definition reload_ok (u : User unit) (year : Z) : result (User unit) :=
  Ok {| start_date := start_date u; end_date := end_date u;
        department := department u; my_leaves := Some tt |}.

Definition adjustment_ok (u : User unit) (year : Z) : result (numeric_arg * numeric_arg) :=
  Ok (Numeric (JS.Num 0), Numeric (JS.Num 2)).

Definition taken_ok (u : User unit) (yyyy : Z) : result numeric_arg :=
  Ok (Numeric (JS.Num 3)).

(** The same employee with the leave details loaded. *)
Definition long_serving_loaded : User unit :=
  {| start_date := utc_date 2019 4 15; end_date := None;
     department := plain_department; my_leaves := Some tt |}.

(** A store with one moment object, 5 May 2020, and no calls yet. *)
Definition one_moment : State :=
  {| store := [utc_date 2020 5 5]; calls := [] |}.

(** A store with two moment objects, 5 May 2020 and 24 December 2020. *)
Definition two_moments : State :=
  {| store := [utc_date 2020 5 5; utc_date 2020 12 24]; calls := [] |}.

Definition promise_args (year : date_arg) (u : User unit) (now : date_arg)
    (forceNow : option bool) : PromiseArgs.t unit :=
  {| PromiseArgs.year := year; PromiseArgs.user := IsUser u;
     PromiseArgs.now := now; PromiseArgs.forceNow := forceNow |}.

(** An argument bag of the constructor without [manual_adjustment]. *)
Definition args_without_adjustment : Args.t unit :=
  {| Args.user := IsUser long_serving;
     Args.number_of_days_taken_from_allowance := Numeric (JS.Num 3);
     Args.manual_adjustment := Absent;
     Args.carry_over := Numeric (JS.Num 2);
     Args.nominal_allowance := Numeric (JS.Num 28);
     Args.now := NoDate |}.

End Examples.

(** *** Properties of the calendar *)
Module CalendarFacts.
Import Calendar.

Lemma DayFromYear_succ (y : Z) :
  DayFromYear (y + 1) = DayFromYear y + DaysInYear y.
Proof.
  unfold DayFromYear, DaysInYear, InLeapYear.
  destruct (y mod 4 =? 0) eqn:E4; destruct (y mod 100 =? 0) eqn:E100;
    destruct (y mod 400 =? 0) eqn:E400; cbn [andb orb negb];
    rewrite ?Z.eqb_eq, ?Z.eqb_neq in *;
    Z.div_mod_to_equations; lia.
Qed.

Lemma DaysInYear_bounds (y : Z) : 365 <= DaysInYear y <= 366.
Proof. unfold DaysInYear. destruct (InLeapYear y); lia. Qed.

Lemma DayFromYear_lt (y : Z) : DayFromYear y < DayFromYear (y + 1).
Proof. rewrite DayFromYear_succ. pose proof (DaysInYear_bounds y). lia. Qed.

Lemma DayFromYear_mono (a b : Z) : a <= b -> DayFromYear a <= DayFromYear b.
Proof.
  intros Hab. unfold DayFromYear. Z.div_mod_to_equations. lia.
Qed.

(** The estimate of [YearFromDay] is off by at most one year. *)
Lemma YearFromDay_spec (d : Z) :
  DayFromYear (YearFromDay d) <= d < DayFromYear (YearFromDay d + 1).
Proof.
  unfold YearFromDay.
  set (y := 1970 + 400 * d / 146097).
  assert (Hlo : DayFromYear (y - 1) <= d).
  { subst y. unfold DayFromYear. Z.div_mod_to_equations. lia. }
  assert (Hhi : d < DayFromYear (y + 2)).
  { subst y. unfold DayFromYear. Z.div_mod_to_equations. lia. }
  destruct (d <? DayFromYear y) eqn:E1.
  - apply Z.ltb_lt in E1. replace (y - 1 + 1) with y by lia. lia.
  - apply Z.ltb_ge in E1.
    destruct (DayFromYear (y + 1) <=? d) eqn:E2.
    + apply Z.leb_le in E2. replace (y + 1 + 1) with (y + 2) by lia. lia.
    + apply Z.leb_gt in E2. lia.
Qed.

(** [YearFromDay d] is the only year whose days include [d]. *)
Lemma YearFromDay_unique (d y : Z) :
  DayFromYear y <= d < DayFromYear (y + 1) -> YearFromDay d = y.
Proof.
  intros [Hlo Hhi]. pose proof (YearFromDay_spec d) as [Slo Shi].
  destruct (Z.lt_trichotomy (YearFromDay d) y) as [Hlt | [Heq | Hgt]]; [| exact Heq |].
  - pose proof (DayFromYear_mono (YearFromDay d + 1) y ltac:(lia)). lia.
  - pose proof (DayFromYear_mono (y + 1) (YearFromDay d) ltac:(lia)). lia.
Qed.

Lemma Day_offset (d t : Z) : 0 <= t < msPerDay -> Day (msPerDay * d + t) = d.
Proof.
  intros Ht. unfold Day, msPerDay in *. Z.div_mod_to_equations. lia.
Qed.

Lemma year_in_year (y d t : Z) :
  0 <= d < DaysInYear y -> 0 <= t < msPerDay ->
  year (msPerDay * (DayFromYear y + d) + t) = y.
Proof.
  intros Hd Ht. unfold year, YearFromTime. rewrite Day_offset by exact Ht.
  apply YearFromDay_unique. rewrite DayFromYear_succ. lia.
Qed.

Lemma year_of_date (y m d t : Z) :
  0 <= DayWithinYear (InLeapYear y) m + (d - 1) < DaysInYear y ->
  0 <= t < msPerDay ->
  year (utc_date y m d + t) = y.
Proof.
  intros Hd Ht. unfold utc_date.
  replace (DayFromYear y + DayWithinYear (InLeapYear y) m + (d - 1))
    with (DayFromYear y + (DayWithinYear (InLeapYear y) m + (d - 1))) by lia.
  apply year_in_year; assumption.
Qed.

(** From 1 July to the last millisecond of the year there are 183 full
    days, in leap years as well. *)
Lemma days_from_july_first (y : Z) :
  diff_days (TimeFromYear (y + 1) - 1) (utc_date y 7 1) = 183.
Proof.
  unfold diff_days, TimeFromYear, utc_date. rewrite DayFromYear_succ.
  unfold DaysInYear. destruct (InLeapYear y); cbn [DayWithinYear].
  - replace (_ - _) with (msPerDay * 184 - 1) by lia. reflexivity.
  - replace (_ - _) with (msPerDay * 184 - 1) by lia. reflexivity.
Qed.

(** An instant lies between the start of its year and the start of the
    next one. *)
Lemma year_bounds (m : Z) :
  TimeFromYear (year m) <= m < TimeFromYear (year m + 1).
Proof.
  unfold TimeFromYear, year, YearFromTime.
  pose proof (YearFromDay_spec (Day m)) as [Hlo Hhi].
  revert Hlo Hhi. generalize (DayFromYear (YearFromDay (Day m))).
  generalize (DayFromYear (YearFromDay (Day m) + 1)).
  unfold Day, msPerDay. intros hi lo Hlo Hhi. Z.div_mod_to_equations. lia.
Qed.

Lemma TimeFromYear_mono (a b : Z) : a <= b -> TimeFromYear a <= TimeFromYear b.
Proof.
  intros H. unfold TimeFromYear, msPerDay.
  pose proof (DayFromYear_mono a b H). lia.
Qed.

(** An instant of an earlier year is an earlier instant. *)
Lemma year_lt_instant_lt (a b : Z) : year a < year b -> a < b.
Proof.
  intros H. pose proof (year_bounds a) as [_ Ha]. pose proof (year_bounds b) as [Hb _].
  pose proof (TimeFromYear_mono (year a + 1) (year b) ltac:(lia)). lia.
Qed.

Lemma year_startOf_year (m : Z) : year (startOf_year m) = year m.
Proof.
  unfold startOf_year, TimeFromYear.
  replace (msPerDay * DayFromYear (year m))
    with (msPerDay * (DayFromYear (year m) + 0) + 0) by lia.
  apply year_in_year; [pose proof (DaysInYear_bounds (year m)) | unfold msPerDay]; lia.
Qed.

Lemma year_endOf_year (m : Z) : year (endOf_year m) = year m.
Proof.
  unfold endOf_year, TimeFromYear. rewrite DayFromYear_succ.
  replace (msPerDay * (DayFromYear (year m) + DaysInYear (year m)) - 1)
    with (msPerDay * (DayFromYear (year m) + (DaysInYear (year m) - 1)) + (msPerDay - 1))
    by lia.
  apply year_in_year; [pose proof (DaysInYear_bounds (year m)) | unfold msPerDay]; lia.
Qed.

(** The length of a year in milliseconds. *)
Lemma TimeFromYear_succ (y : Z) :
  TimeFromYear (y + 1) = TimeFromYear y + msPerDay * DaysInYear y.
Proof. unfold TimeFromYear. rewrite DayFromYear_succ. lia. Qed.

(** Whole days between two instants of one year, the later first. *)
Lemma diff_days_within_year (a b : Z) :
  year a = year b -> b <= a -> 0 <= diff_days a b <= 365.
Proof.
  intros Hy Hab. pose proof (year_bounds a) as [_ Ha]. pose proof (year_bounds b) as [Hb _].
  rewrite Hy, TimeFromYear_succ in Ha. pose proof (DaysInYear_bounds (year b)) as Hd.
  unfold diff_days. split.
  - apply Z.quot_pos; unfold msPerDay; lia.
  - assert (a - b < msPerDay * 366) by (unfold msPerDay in *; lia).
    apply Z.lt_succ_r. apply Z.quot_lt_upper_bound; unfold msPerDay in *; lia.
Qed.

Lemma diff_days_nonpos (a b : Z) : a <= b -> diff_days a b <= 0.
Proof.
  intros H. unfold diff_days.
  replace (a - b) with (- (b - a)) by lia. rewrite Z.quot_opp_l by (unfold msPerDay; lia).
  pose proof (Z.quot_pos (b - a) msPerDay ltac:(lia) ltac:(unfold msPerDay; lia)). lia.
Qed.

Lemma diff_days_mono_l (a b e : Z) : a <= b -> diff_days a e <= diff_days b e.
Proof. intros H. unfold diff_days, msPerDay. apply Z.quot_le_mono; lia. Qed.

(** From 1 January to the last millisecond of the year there is one
    day less than the year has. *)
Lemma days_from_january_first (y : Z) :
  diff_days (TimeFromYear (y + 1) - 1) (utc_date y 1 1) = DaysInYear y - 1.
Proof.
  unfold diff_days, utc_date. rewrite TimeFromYear_succ. unfold TimeFromYear.
  cbn [DayWithinYear].
  replace (_ - _) with (msPerDay * (DaysInYear y - 1) + (msPerDay - 1)) by lia.
  unfold DaysInYear. destruct (InLeapYear y); reflexivity.
Qed.

End CalendarFacts.

(** *** Properties of the number operations *)
Module JSFacts.
Import JS.

Lemma Qfloor_unique (x : Q) (m : Z) :
  (inject_Z m <= x)%Q -> (x < inject_Z (m + 1))%Q -> Qfloor x = m.
Proof.
  intros Hlo Hhi.
  assert (m <= Qfloor x).
  { rewrite <- (Qfloor_Z m). apply Qfloor_resp_le. exact Hlo. }
  assert (Qfloor x < m + 1).
  { rewrite Zlt_Qlt. eapply Qle_lt_trans; [apply Qfloor_le | exact Hhi]. }
  lia.
Qed.

Lemma inject_Z_eq_0 (z : Z) : (inject_Z z == 0)%Q -> z = 0.
Proof. unfold Qeq. cbn. lia. Qed.

Lemma round_half_integer (m : Z) : Qfloor (inject_Z m + (1 # 2)) = m.
Proof.
  apply Qfloor_unique.
  - lra.
  - rewrite inject_Z_plus. change (inject_Z 1) with 1%Q. lra.
Qed.

Lemma round_mono (x y : Q) : (x <= y)%Q -> round x <= round y.
Proof. intros H. unfold round. apply Qfloor_resp_le. lra. Qed.

Lemma round_zero : round 0 = 0.
Proof. reflexivity. Qed.

Lemma round_comp (x y : Q) : (x == y)%Q -> round x = round y.
Proof. intros H. unfold round. apply Qfloor_comp. rewrite H. reflexivity. Qed.

(** The nearest tenth of a half-integer is that half-integer. *)
Lemma nearest_tenth_of_half (x : Q) (r : Z) :
  (x == inject_Z r / 2)%Q ->
  (inject_Z (Qfloor (x * 10 + (1 # 2))) / 10 == x)%Q.
Proof.
  intros E.
  assert (E5 : (x * 10 + (1 # 2) == inject_Z (5 * r) + (1 # 2))%Q).
  { rewrite E, inject_Z_mult. change (inject_Z 5) with 5%Q. field. }
  rewrite (Qfloor_comp _ _ E5), round_half_integer, E, inject_Z_mult.
  change (inject_Z 5) with 5%Q. field.
Qed.

(** Half-integers survive [toFixed(1)] unchanged. *)
Lemma toFixed1_half (r : Z) :
  exists q, toFixed1 (Num (inject_Z r / 2)) = Num q /\ (q == inject_Z r / 2)%Q.
Proof.
  unfold toFixed1.
  destruct (Qle_bool _ _); [eexists; split; reflexivity |].
  destruct (Qcompare_spec (inject_Z r / 2) 0) as [Heq | Hlt | Hgt];
    (eexists; split; [reflexivity |]).
  1, 3: rewrite (nearest_tenth_of_half _ r); rewrite Qabs_pos by lra; reflexivity.
  rewrite (nearest_tenth_of_half _ (- r)); rewrite Qabs_neg by lra.
  - ring.
  - rewrite inject_Z_opp. field.
Qed.

(** [-1 * (Math.round(d * 2) / 2).toFixed(1)] for a finite [d]. *)
Lemma negated_half_rounding (d : Q) :
  exists q,
    mul (Num (-1)) (toFixed1 (div (Math_round (mul (Num d) (Num 2))) (Num 2))) = Num q
    /\ (q == - (inject_Z (round (d * 2)) / 2))%Q.
Proof.
  cbn [mul Math_round div]. change (Qeq_bool 2 0) with false. cbn iota.
  destruct (toFixed1_half (round (d * 2))) as (q & -> & Hq).
  exists (-1 * q)%Q. split; [reflexivity |]. rewrite Hq. ring.
Qed.

(** The same expression when [d] is not finite. *)
Lemma negated_half_rounding_of_sign (c : comparison) :
  mul (Num (-1)) (toFixed1 (div (Math_round (mul (of_sign c) (Num 2))) (Num 2)))
  = of_sign (CompOpp c).
Proof. destruct c; reflexivity. Qed.

Lemma round_upper (x : Q) : (inject_Z (round x) <= x + (1 # 2))%Q.
Proof. unfold round. apply Qfloor_le. Qed.

Lemma round_nonneg (x : Q) : (0 <= x)%Q -> 0 <= round x.
Proof. intros H. rewrite <- round_zero. apply round_mono, H. Qed.

Lemma round_nonpos (x : Q) : (x <= 0)%Q -> round x <= 0.
Proof. intros H. rewrite <- round_zero. apply round_mono, H. Qed.

Lemma round_integer (n : Z) : round (inject_Z n) = n.
Proof.
  unfold round. apply Qfloor_unique.
  - lra.
  - rewrite inject_Z_plus. change (inject_Z 1) with 1%Q. lra.
Qed.

(** A share of [n] for [d] days out of 365. *)
Lemma share_of_year (n : Q) (d : Z) :
  (0 <= n)%Q -> 0 <= d <= 365 ->
  (0 <= n * inject_Z d / 365)%Q /\ (n * inject_Z d / 365 <= n)%Q.
Proof.
  intros Hn [Hd0 Hd1]. rewrite Zle_Qle in Hd0, Hd1.
  change (inject_Z 0) with 0%Q in Hd0. change (inject_Z 365) with 365%Q in Hd1.
  unfold Qdiv. change (/ 365)%Q with (1 # 365)%Q.
  generalize dependent (inject_Z d). intros q Hq0 Hq1. split; nra.
Qed.

Lemma share_of_year_mono (n : Q) (d1 d2 : Z) :
  (0 <= n)%Q -> d1 <= d2 ->
  (n * inject_Z d1 / 365 <= n * inject_Z d2 / 365)%Q.
Proof.
  intros Hn Hd. rewrite Zle_Qle in Hd.
  unfold Qdiv. change (/ 365)%Q with (1 # 365)%Q.
  revert Hd. generalize (inject_Z d1), (inject_Z d2). intros q1 q2 Hq. nra.
Qed.

Lemma share_of_year_nonpos (n : Q) (d : Z) :
  (0 <= n)%Q -> d <= 0 -> (n * inject_Z d / 365 <= 0)%Q.
Proof.
  intros Hn Hd. rewrite Zle_Qle in Hd. change (inject_Z 0) with 0%Q in Hd.
  unfold Qdiv. change (/ 365)%Q with (1 # 365)%Q.
  revert Hd. generalize (inject_Z d). intros q Hq. nra.
Qed.

(** Whole allowances up to 182 days keep their value over 364 days out
    of 365. *)
Lemma round_364_of_365 (n : Z) :
  0 <= n <= 182 -> round (inject_Z n * inject_Z 364 / 365) = n.
Proof.
  intros [H0 H1]. rewrite Zle_Qle in H0, H1.
  change (inject_Z 0) with 0%Q in H0. change (inject_Z 182) with 182%Q in H1.
  unfold round. apply Qfloor_unique.
  - unfold Qdiv. change (/ 365)%Q with (1 # 365)%Q. change (inject_Z 364) with 364%Q.
    revert H0 H1. generalize (inject_Z n). intros q H0 H1. lra.
  - rewrite inject_Z_plus. change (inject_Z 1) with 1%Q.
    unfold Qdiv. change (/ 365)%Q with (1 # 365)%Q. change (inject_Z 364) with 364%Q.
    revert H0 H1. generalize (inject_Z n). intros q H0 H1. lra.
Qed.

Lemma round_365_of_365 (n : Z) : round (inject_Z n * inject_Z 365 / 365) = n.
Proof.
  rewrite <- (round_integer n) at 2. apply round_comp.
  change (inject_Z 365) with 365%Q. field.
Qed.

End JSFacts.

(** *** Properties of the calculator *)
Section CalculatorFacts.
Context {Leaves : Type}.
Implicit Type this : UserAllowance Leaves Z.
Import Calendar CalendarFacts JS JSFacts.

Lemma employed_whole_year_iff this :
  employed_whole_year this = true <->
  year (_now this) <> year (start_date (user this))
  /\ (end_date (user this) = None
      \/ exists e, end_date (user this) = Some e /\ year e > year (_now this)).
Proof.
  unfold employed_whole_year.
  rewrite andb_true_iff, negb_true_iff, Z.eqb_neq.
  destruct (end_date (user this)) as [e |].
  - rewrite Z.gtb_gt. split.
    + intros [H1 H2]. split; [exact H1 | right; exists e; split; [reflexivity | exact H2]].
    + intros [H1 [H2 | (e' & [= <-] & H2)]]; [discriminate | split; assumption].
  - split; [intros [H1 _]; split; [exact H1 | left; reflexivity] | intros [H1 _]; split; [exact H1 | reflexivity]].
Qed.

(** With an empty period the division in [accrued_adjustment] is a
    division by zero: the result is NaN or an infinity, according to
    the sign of the allowance that remains to accrue. *)
Lemma accrued_adjustment_zero_span this :
  days_in_period this = 0 ->
  accrued_adjustment this
  = of_sign (CompOpp (allowance_for_period this
                      * inject_Z (diff_days (period_ends_at this) (_now this)) ?= 0)%Q).
Proof.
  intros H0. unfold accrued_adjustment, accrual_delta. rewrite H0.
  cbn [div]. change (Qeq_bool (inject_Z 0) 0) with true. cbn iota.
  apply negated_half_rounding_of_sign.
Qed.

Lemma accrued_adjustment_zero_span_not_finite this :
  days_in_period this = 0 -> isFinite (accrued_adjustment this) = false.
Proof.
  intros H0. rewrite accrued_adjustment_zero_span by exact H0.
  destruct (_ ?= _)%Q; reflexivity.
Qed.

(** With a period of non-zero span the result is the negated
    half-day rounding of the exact quotient. *)
Lemma accrued_adjustment_finite this :
  days_in_period this <> 0 ->
  exists q,
    accrued_adjustment this = Num q
    /\ (q == - (inject_Z (round (allowance_for_period this
                                 * inject_Z (diff_days (period_ends_at this) (_now this))
                                 / inject_Z (days_in_period this) * 2)) / 2))%Q.
Proof.
  intros Hne. unfold accrued_adjustment, accrual_delta. cbn [div].
  destruct (Qeq_bool (inject_Z (days_in_period this)) 0) eqn:E.
  - apply Qeq_bool_eq, inject_Z_eq_0 in E. contradiction.
  - apply negated_half_rounding.
Qed.

Lemma diff_days_antitone (e a b : Z) : a <= b -> diff_days e b <= diff_days e a.
Proof.
  intros Hab. unfold diff_days, msPerDay. apply Z.quot_le_mono; lia.
Qed.

Lemma diff_days_self (a : Z) : diff_days a a = 0.
Proof. unfold diff_days. rewrite Z.sub_diag. reflexivity. Qed.

(** The period depends on [_now] through its year only. *)
Lemma with_now_same_year this (t : Z) :
  year t = year (_now this) ->
  period_starts_at (with_now this t) = period_starts_at this
  /\ period_ends_at (with_now this t) = period_ends_at this
  /\ employement_range_adjustment (with_now this t) = employement_range_adjustment this.
Proof.
  intros Hy.
  assert (Hs : period_starts_at (with_now this t) = period_starts_at this).
  { unfold period_starts_at, startOf_year. cbn. rewrite Hy. reflexivity. }
  assert (He : period_ends_at (with_now this t) = period_ends_at this).
  { unfold period_ends_at, endOf_year. cbn. rewrite Hy. reflexivity. }
  split; [exact Hs | split; [exact He |]].
  unfold employement_range_adjustment, employed_whole_year. rewrite Hs, He.
  cbn. rewrite Hy. reflexivity.
Qed.

(** The quotient that is rounded grows with the number of days left
    when allowance and span have the same sign. *)
Lemma quotient_mono (a : Q) (p d1 d2 : Z) :
  p <> 0 -> (0 <= a * inject_Z p)%Q -> d2 <= d1 ->
  (a * inject_Z d2 / inject_Z p * 2 <= a * inject_Z d1 / inject_Z p * 2)%Q.
Proof.
  intros Hp Hap Hd.
  assert (Hp' : ~ (inject_Z p == 0)%Q).
  { intros E. apply Hp, inject_Z_eq_0, E. }
  assert (Hc : (0 <= a / inject_Z p)%Q).
  { assert (E : (a / inject_Z p == (a * inject_Z p) * / (inject_Z p * inject_Z p))%Q)
      by (field; exact Hp').
    rewrite E. apply Qmult_le_0_compat; [exact Hap |].
    apply Qinv_le_0_compat. nra. }
  assert (Hd' : (inject_Z d2 <= inject_Z d1)%Q) by (rewrite <- Zle_Qle; exact Hd).
  assert (E1 : (a * inject_Z d1 / inject_Z p * 2 == (a / inject_Z p) * inject_Z d1 * 2)%Q)
    by (field; exact Hp').
  assert (E2 : (a * inject_Z d2 / inject_Z p * 2 == (a / inject_Z p) * inject_Z d2 * 2)%Q)
    by (field; exact Hp').
  rewrite E1, E2. nra.
Qed.

Lemma whole_year_not_prorated this :
  year (start_date (user this)) <> year (_now this) ->
  (end_date (user this) = None
   \/ exists e, end_date (user this) = Some e /\ year e > year (_now this)) ->
  employement_range_adjustment this = 0%Q.
Proof.
  intros Hs He. unfold employement_range_adjustment.
  replace (employed_whole_year this) with true; [reflexivity |].
  symmetry. apply employed_whole_year_iff. split; [congruence | exact He].
Qed.

(** C2: when the year of the employee's start date is strictly after
    the year of [now], no days are available in the allowance. *)
Theorem nothing_available_before_start_year this :
  year (start_date (user this)) > year (_now this) ->
  number_of_days_available_in_allowance this = Num 0.
Proof.
  intros H. unfold number_of_days_available_in_allowance.
  apply Z.gtb_gt in H. rewrite H. reflexivity.
Qed.

(** C5: when the start date lies in another year than [now] and there
    is no end date, or the end date lies in a later year than [now],
    the employment range adjustment is 0. *)
Theorem no_adjustment_when_employed_whole_year this :
  year (start_date (user this)) <> year (_now this) ->
  (end_date (user this) = None
   \/ exists e, end_date (user this) = Some e /\ year e > year (_now this)) ->
  employement_range_adjustment this = 0%Q.
Proof.
  exact (whole_year_not_prorated this).
Qed.

(** C6: for an employee employed the whole year of [now] (started in
    an earlier year, no end date or one in a later year), with no
    carry over and no manual adjustment, in a department without
    accrual, the days available are the nominal allowance minus the
    days taken; and the total is always the sum of nominal allowance,
    carry over, manual adjustment and employment range adjustment. *)
Theorem available_is_nominal_minus_taken this :
  (year (start_date (user this)) < year (_now this) ->
   (end_date (user this) = None
    \/ exists e, end_date (user this) = Some e /\ year e > year (_now this)) ->
   (carry_over this == 0)%Q ->
   (manual_adjustment this == 0)%Q ->
   is_accrued_allowance this = false ->
   number_of_days_available_in_allowance this
   === Num (nominal_allowance this - number_of_days_taken_from_allowance this))
  /\ total_number_of_days_in_allowance this
     = (nominal_allowance this + carry_over this + manual_adjustment this
        + employement_range_adjustment this)%Q.
Proof.
  split; [| reflexivity].
  intros Hs He Hc Hm Ha. unfold number_of_days_available_in_allowance.
  replace (year (start_date (user this)) >? year (_now this)) with false
    by (symmetry; rewrite Z.gtb_ltb; apply Z.ltb_ge; lia).
  rewrite Ha. unfold total_number_of_days_in_allowance.
  rewrite whole_year_not_prorated by (try exact He; lia).
  cbn [add strict_equal]. apply Qeq_bool_iff. rewrite Hc, Hm. ring.
Qed.

(** C4: with a nominal allowance of 28, a start date of 1 July of the
    year of [now], no end date and [now] on 31 December, the effective
    period counts 183 days, the adjustment is
    -(nominal - round(nominal * days / 365)) with the fixed
    denominator 365, and that is exactly -14. *)
Theorem mid_year_start_adjustment this (y t : Z) :
  (nominal_allowance this == 28)%Q ->
  start_date (user this) = utc_date y 7 1 ->
  end_date (user this) = None ->
  0 <= t < msPerDay ->
  _now this = utc_date y 12 31 + t ->
  diff_days (period_ends_at this) (period_starts_at this) = 183
  /\ (employement_range_adjustment this
      == - (nominal_allowance this
            - inject_Z (round (nominal_allowance this
                               * inject_Z (diff_days (period_ends_at this)
                                                     (period_starts_at this))
                               / 365))))%Q
  /\ (employement_range_adjustment this == -14)%Q.
Proof.
  intros Hn Hs He Ht Hnow.
  assert (Ys : year (start_date (user this)) = y).
  { rewrite Hs, <- (Z.add_0_r (utc_date y 7 1)).
    apply year_of_date; unfold DaysInYear, msPerDay;
      destruct (InLeapYear y); cbn; lia. }
  assert (Yn : year (_now this) = y).
  { rewrite Hnow. apply year_of_date; [| exact Ht].
    unfold DaysInYear; destruct (InLeapYear y); cbn; lia. }
  assert (Hd : diff_days (period_ends_at this) (period_starts_at this) = 183).
  { unfold period_ends_at, period_starts_at, endOf_year.
    rewrite He, Ys, Yn, Z.eqb_refl, Hs. apply days_from_july_first. }
  assert (Hf : employed_whole_year this = false).
  { unfold employed_whole_year. rewrite Ys, Yn, Z.eqb_refl. reflexivity. }
  split; [exact Hd |].
  unfold employement_range_adjustment. rewrite Hf, Hd. split; [ring |].
  assert (E : round (nominal_allowance this * inject_Z 183 / 365) = 14).
  { transitivity (round (28 * inject_Z 183 / 365)); [| reflexivity].
    apply round_comp. rewrite Hn. reflexivity. }
  rewrite E, Hn. reflexivity.
Qed.

Lemma with_now_accrual_inputs this (t : Z) :
  year t = year (_now this) ->
  days_in_period (with_now this t) = days_in_period this
  /\ allowance_for_period (with_now this t) = allowance_for_period this.
Proof.
  intros Hy. destruct (with_now_same_year this t Hy) as (Hs & He & Ha).
  unfold days_in_period, allowance_for_period. rewrite Hs, He, Ha.
  split; reflexivity.
Qed.

(** C3, amended: over a period of non-zero span the accrued adjustment
    is 0 when [now] is the end of the period, and, when the allowance
    for the period is zero or has the sign of the span (a non-negative
    allowance over a period that ends after it starts), it does not
    decrease as [now] moves later within the year. *)
Theorem accrued_adjustment_monotone this :
  days_in_period this <> 0 ->
  (_now this = period_ends_at this -> accrued_adjustment this === Num 0)
  /\ (forall t : Z,
        year t = year (_now this) ->
        _now this <= t ->
        (0 <= allowance_for_period this * inject_Z (days_in_period this))%Q ->
        less_equal (accrued_adjustment this) (accrued_adjustment (with_now this t)) = true).
Proof.
  intros Hp. destruct (accrued_adjustment_finite this Hp) as (q & Eq & Hq). split.
  - intros Hnow. rewrite Eq. cbn [strict_equal]. apply Qeq_bool_iff.
    rewrite Hq, <- Hnow, diff_days_self.
    assert (E : round (allowance_for_period this * inject_Z 0
                       / inject_Z (days_in_period this) * 2) = 0).
    { transitivity (round 0); [| exact round_zero]. apply round_comp.
      unfold Qdiv. change (inject_Z 0) with 0%Q. ring. }
    rewrite E. reflexivity.
  - intros t Hy Hle Hsign.
    destruct (with_now_same_year this t Hy) as (_ & He & _).
    destruct (with_now_accrual_inputs this t Hy) as (Hd & Ha).
    assert (Hp' : days_in_period (with_now this t) <> 0) by (rewrite Hd; exact Hp).
    destruct (accrued_adjustment_finite (with_now this t) Hp') as (q' & Eq' & Hq').
    rewrite Eq, Eq'. cbn [less_equal]. apply Qle_bool_iff.
    rewrite Hq, Hq', Hd, Ha, He. cbn [with_now _now].
    pose proof (round_mono _ _
      (quotient_mono (allowance_for_period this) (days_in_period this)
         (diff_days (period_ends_at this) (_now this))
         (diff_days (period_ends_at this) t)
         Hp Hsign (diff_days_antitone _ _ _ Hle))) as Hr.
    rewrite Zle_Qle in Hr.
    apply Qopp_le_compat, Qmult_le_compat_r; [exact Hr | discriminate].
Qed.


(** **** The employment window and the proration *)

Lemma period_starts_in_year this : year (period_starts_at this) = year (_now this).
Proof.
  unfold period_starts_at.
  destruct (year (start_date (user this)) =? year (_now this)) eqn:E.
  - apply Z.eqb_eq, E.
  - apply year_startOf_year.
Qed.

Lemma period_ends_in_year this :
  (forall e, end_date (user this) = Some e -> year (_now this) <= year e) ->
  year (period_ends_at this) = year (_now this).
Proof.
  intros H. unfold period_ends_at. destruct (end_date (user this)) as [e |].
  - destruct (year e <=? year (_now this)) eqn:E.
    + apply Z.leb_le in E. specialize (H e eq_refl). lia.
    + apply year_endOf_year.
  - apply year_endOf_year.
Qed.

(** The adjustment when the proration applies: the rounded share less
    the nominal allowance. *)
Lemma prorated_adjustment this :
  employed_whole_year this = false ->
  (employement_range_adjustment this
   == inject_Z (round (nominal_allowance this * inject_Z (days_in_period this) / 365))
      - nominal_allowance this)%Q.
Proof.
  intros H. unfold employement_range_adjustment, days_in_period. rewrite H. ring.
Qed.

Lemma started_this_year_not_whole_year this :
  year (start_date (user this)) = year (_now this) -> employed_whole_year this = false.
Proof. intros H. unfold employed_whole_year. rewrite H, Z.eqb_refl. reflexivity. Qed.

(** X1: the window over which allowance is prorated and accrued starts
    in the year of [now] and does not end in a later year. *)
Theorem period_within_year_of_now this :
  year (period_starts_at this) = year (_now this)
  /\ year (period_ends_at this) <= year (_now this).
Proof.
  split; [apply period_starts_in_year |].
  unfold period_ends_at. destruct (end_date (user this)) as [e |].
  - destruct (year e <=? year (_now this)) eqn:E.
    + apply Z.leb_le, E.
    + rewrite year_endOf_year. lia.
  - rewrite year_endOf_year. lia.
Qed.

(** A number of half days is half an integer. *)
Lemma half_days_half_integer (q : Q) :
  half_days q = true -> exists k : Z, (q == inject_Z k / 2)%Q.
Proof.
  unfold half_days. intros H. apply andb_true_iff in H as [Hd _].
  apply Pos.eqb_eq in Hd.
  exists (Qnum (Qred (q * 2))).
  pose proof (Qred_correct (q * 2)) as E.
  destruct (Qred (q * 2)) as [n d]. cbn [Qden Qnum] in *. subst d.
  change (n # 1)%Q with (inject_Z n) in E. rewrite E. field.
Qed.

(** With the nominal allowance and the manual adjustment, the allowance
    for the period is a number of half days. *)
Lemma allowance_for_period_half_integer this :
  half_days (nominal_allowance this) = true ->
  half_days (manual_adjustment this) = true ->
  exists k : Z, (allowance_for_period this == inject_Z k / 2)%Q.
Proof.
  intros Hn Hm.
  destruct (half_days_half_integer _ Hn) as [n En].
  destruct (half_days_half_integer _ Hm) as [m Em].
  unfold allowance_for_period.
  destruct (employed_whole_year this) eqn:Hw.
  - exists (n + m). unfold employement_range_adjustment. rewrite Hw, En, Em.
    rewrite inject_Z_plus. field.
  - exists (m + 2 * round (nominal_allowance this * inject_Z (days_in_period this) / 365)).
    rewrite (prorated_adjustment this Hw), Em, inject_Z_plus, inject_Z_mult.
    change (inject_Z 2) with 2%Q. field.
Qed.

Lemma round_twice_half_integer (q : Q) (k : Z) :
  (q == inject_Z k / 2)%Q -> (inject_Z (round (q * 2)) / 2 == q)%Q.
Proof.
  intros E.
  assert (R : round (q * 2) = k).
  { transitivity (round (inject_Z k)); [| apply round_integer].
    apply round_comp. rewrite E. field. }
  rewrite R, E. reflexivity.
Qed.

(** X2: for a nominal allowance that is a number of half days and not
    negative, and a window that ends in the year of [now], not before
    it starts, the adjustment takes away at most the nominal allowance
    and adds at most half a day. *)
Theorem proration_bounds this :
  half_days (nominal_allowance this) = true ->
  (0 <= nominal_allowance this)%Q ->
  (forall e, end_date (user this) = Some e -> year (_now this) <= year e) ->
  period_starts_at this <= period_ends_at this ->
  (- nominal_allowance this <= employement_range_adjustment this)%Q
  /\ (employement_range_adjustment this <= 1 # 2)%Q.
Proof.
  intros _ Hn He Hse.
  destruct (employed_whole_year this) eqn:Hw.
  - unfold employement_range_adjustment. rewrite Hw. split; lra.
  - assert (Hd : 0 <= days_in_period this <= 365).
    { apply diff_days_within_year; [| exact Hse].
      rewrite period_starts_in_year. apply period_ends_in_year, He. }
    destruct (share_of_year _ _ Hn Hd) as [Hx0 Hx1].
    rewrite (prorated_adjustment this Hw).
    pose proof (round_nonneg _ Hx0) as Hr0. rewrite Zle_Qle in Hr0.
    change (inject_Z 0) with 0%Q in Hr0.
    pose proof (round_upper (nominal_allowance this * inject_Z (days_in_period this) / 365))
      as Hr1.
    split; lra.
Qed.

(** X3: of two employees who differ in their start date only, both
    having started in the year of [now], the one who started later has
    the lower (or the same) adjustment, the nominal allowance being
    non-negative. *)
Theorem later_start_lower_adjustment this (s : Z) :
  (0 <= nominal_allowance this)%Q ->
  year (start_date (user this)) = year (_now this) ->
  year s = year (_now this) ->
  start_date (user this) <= s ->
  (employement_range_adjustment (with_start_date this s)
   <= employement_range_adjustment this)%Q.
Proof.
  intros Hn Hy Hys Hle.
  rewrite (prorated_adjustment this) by (apply started_this_year_not_whole_year, Hy).
  rewrite (prorated_adjustment (with_start_date this s))
    by (apply started_this_year_not_whole_year, Hys).
  assert (Hd : days_in_period (with_start_date this s) <= days_in_period this).
  { unfold days_in_period, period_starts_at. cbn [with_start_date user _user start_date _now].
    change (period_ends_at (with_start_date this s)) with (period_ends_at this).
    fold (user this). rewrite Hy, Hys, !Z.eqb_refl. apply diff_days_antitone, Hle. }
  pose proof (round_mono _ _ (share_of_year_mono _ _ _ Hn Hd)) as Hr.
  rewrite Zle_Qle in Hr.
  change (nominal_allowance (with_start_date this s)) with (nominal_allowance this).
  lra.
Qed.

(** X4: an employee who starts on 1 January of the year of [now] and
    has no end date keeps a whole nominal allowance of up to 182 days
    in full, in leap years and in others: the fixed denominator 365
    against the 364 or 365 days counted makes no difference. *)
Theorem january_start_not_prorated this (y n : Z) :
  start_date (user this) = utc_date y 1 1 ->
  end_date (user this) = None ->
  year (_now this) = y ->
  (nominal_allowance this == inject_Z n)%Q ->
  0 <= n <= 182 ->
  (employement_range_adjustment this == 0)%Q.
Proof.
  intros Hs He Hy Hn Hb.
  assert (Ys : year (start_date (user this)) = y).
  { rewrite Hs, <- (Z.add_0_r (utc_date y 1 1)).
    apply year_of_date; [pose proof (DaysInYear_bounds y); cbn | unfold msPerDay]; lia. }
  rewrite prorated_adjustment by (apply started_this_year_not_whole_year; congruence).
  assert (Hd : days_in_period this = DaysInYear y - 1).
  { unfold days_in_period, period_starts_at, period_ends_at, endOf_year.
    rewrite He, Ys, Hy, Z.eqb_refl, Hs. apply days_from_january_first. }
  assert (Hr : round (nominal_allowance this * inject_Z (days_in_period this) / 365) = n).
  { rewrite Hd.
    transitivity (round (inject_Z n * inject_Z (DaysInYear y - 1) / 365)).
    - apply round_comp. rewrite Hn. reflexivity.
    - unfold DaysInYear. destruct (InLeapYear y).
      + apply round_365_of_365.
      + apply round_364_of_365, Hb. }
  rewrite Hr, Hn. ring.
Qed.

(** X5: for an employee whose end date lies in a year before the year
    of [now], the nominal allowance and the adjustment together are
    never positive, the nominal allowance being non-negative. *)
Theorem left_in_earlier_year_nothing_left this (e : Z) :
  end_date (user this) = Some e ->
  year e < year (_now this) ->
  (0 <= nominal_allowance this)%Q ->
  (nominal_allowance this + employement_range_adjustment this <= 0)%Q.
Proof.
  intros He Hy Hn.
  assert (Hw : employed_whole_year this = false).
  { unfold employed_whole_year. rewrite He.
    replace (year e >? year (_now this)) with false
      by (symmetry; rewrite Z.gtb_ltb; apply Z.ltb_ge; lia).
    apply andb_false_r. }
  assert (Hd : days_in_period this <= 0).
  { unfold days_in_period. apply diff_days_nonpos.
    assert (Hpe : period_ends_at this = e).
    { unfold period_ends_at. rewrite He.
      replace (year e <=? year (_now this)) with true by (symmetry; apply Z.leb_le; lia).
      reflexivity. }
    rewrite Hpe. apply Z.lt_le_incl, year_lt_instant_lt.
    rewrite period_starts_in_year. exact Hy. }
  rewrite (prorated_adjustment this Hw).
  pose proof (round_nonpos _ (share_of_year_nonpos _ _ Hn Hd)) as Hr.
  rewrite Zle_Qle in Hr. change (inject_Z 0) with 0%Q in Hr. lra.
Qed.


(** **** The accrual *)

(** X6: over a window of non-zero span the accrued adjustment is a
    finite number of half days. *)
Theorem accrued_adjustment_half_days this :
  days_in_period this <> 0 ->
  exists k : Z, accrued_adjustment this === Num (inject_Z k / 2).
Proof.
  intros Hp. destruct (accrued_adjustment_finite this Hp) as (q & -> & Hq).
  eexists (- _). cbn [strict_equal]. apply Qeq_bool_iff.
  rewrite Hq, inject_Z_opp. field.
Qed.

(** X7: read at the start of a window of non-zero span, with a
    nominal allowance and a manual adjustment that are numbers of half
    days, the accrued adjustment takes away the whole allowance for the
    period: nothing has accrued yet. *)
Theorem accrued_adjustment_at_period_start this :
  half_days (nominal_allowance this) = true ->
  half_days (manual_adjustment this) = true ->
  days_in_period this <> 0 ->
  _now this = period_starts_at this ->
  accrued_adjustment this === Num (- allowance_for_period this).
Proof.
  intros Hn Hm Hp Hnow.
  destruct (allowance_for_period_half_integer this Hn Hm) as [k Ek].
  destruct (accrued_adjustment_finite this Hp) as (q & -> & Hq).
  cbn [strict_equal]. apply Qeq_bool_iff. rewrite Hq, Hnow. fold (days_in_period this).
  assert (E : round (allowance_for_period this * inject_Z (days_in_period this)
                     / inject_Z (days_in_period this) * 2)
              = round (allowance_for_period this * 2)).
  { apply round_comp. field. intros E. apply Hp, inject_Z_eq_0, E. }
  rewrite E, (round_twice_half_integer _ k Ek). reflexivity.
Qed.

(** X8: while [now] lies within a window of positive span, with a
    nominal allowance and a manual adjustment that are numbers of half
    days, and an allowance for the period that is not negative, the
    accrued adjustment lies between minus that allowance and 0. *)
Theorem accrued_adjustment_bounds this :
  half_days (nominal_allowance this) = true ->
  half_days (manual_adjustment this) = true ->
  0 < days_in_period this ->
  (0 <= allowance_for_period this)%Q ->
  period_starts_at this <= _now this <= period_ends_at this ->
  less_equal (Num (- allowance_for_period this)) (accrued_adjustment this) = true
  /\ less_equal (accrued_adjustment this) (Num 0) = true.
Proof.
  intros Hn Hm Hp Ha [Hlo Hhi].
  destruct (allowance_for_period_half_integer this Hn Hm) as [k Ek].
  assert (Hp' : days_in_period this <> 0) by lia.
  destruct (accrued_adjustment_finite this Hp') as (q & -> & Hq).
  assert (Hsign : (0 <= allowance_for_period this * inject_Z (days_in_period this))%Q).
  { apply Qmult_le_0_compat; [exact Ha |].
    change 0%Q with (inject_Z 0). rewrite <- Zle_Qle. lia. }
  assert (Hd0 : 0 <= diff_days (period_ends_at this) (_now this)).
  { rewrite <- (diff_days_self (_now this)). apply diff_days_mono_l, Hhi. }
  assert (Hd1 : diff_days (period_ends_at this) (_now this) <= days_in_period this).
  { apply diff_days_antitone, Hlo. }
  pose proof (round_mono _ _ (quotient_mono _ _ _ _ Hp' Hsign Hd0)) as Hr0.
  pose proof (round_mono _ _ (quotient_mono _ _ _ _ Hp' Hsign Hd1)) as Hr1.
  assert (E0 : round (allowance_for_period this * inject_Z 0
                      / inject_Z (days_in_period this) * 2) = 0).
  { transitivity (round 0); [| exact round_zero]. apply round_comp.
    unfold Qdiv. change (inject_Z 0) with 0%Q. ring. }
  assert (E1 : round (allowance_for_period this * inject_Z (days_in_period this)
                      / inject_Z (days_in_period this) * 2)
               = round (allowance_for_period this * 2)).
  { apply round_comp. field. intros E. apply Hp', inject_Z_eq_0, E. }
  rewrite E0 in Hr0. rewrite E1 in Hr1. rewrite Zle_Qle in Hr0, Hr1.
  cbn [less_equal]. rewrite !Qle_bool_iff, Hq. split.
  - rewrite <- (round_twice_half_integer _ k Ek) at 1.
    apply Qopp_le_compat, Qmult_le_compat_r; [exact Hr1 | discriminate].
  - apply (Qle_trans _ (- (inject_Z 0 / 2))); [| discriminate].
    apply Qopp_le_compat, Qmult_le_compat_r; [exact Hr0 | discriminate].
Qed.

(** X9: read at the end of a window of non-zero span, by an employee
    who has started by the year of [now], the days available are the
    total allowance less the days taken, also where the allowance
    accrues. *)
Theorem available_at_period_end this :
  days_in_period this <> 0 ->
  _now this = period_ends_at this ->
  year (start_date (user this)) <= year (_now this) ->
  number_of_days_available_in_allowance this
  === Num (total_number_of_days_in_allowance this
           - number_of_days_taken_from_allowance this).
Proof.
  intros Hp Hnow Hy. unfold number_of_days_available_in_allowance.
  replace (year (start_date (user this)) >? year (_now this)) with false
    by (symmetry; rewrite Z.gtb_ltb; apply Z.ltb_ge; lia).
  destruct (is_accrued_allowance this).
  - destruct (accrued_adjustment_finite this Hp) as (q & -> & Hq).
    cbn [add strict_equal]. apply Qeq_bool_iff.
    rewrite Hq, <- Hnow, diff_days_self.
    assert (E : round (allowance_for_period this * inject_Z 0
                       / inject_Z (days_in_period this) * 2) = 0).
    { transitivity (round 0); [| exact round_zero]. apply round_comp.
      unfold Qdiv. change (inject_Z 0) with 0%Q. ring. }
    rewrite E. change (inject_Z 0) with 0%Q. field.
  - cbn [add strict_equal]. apply Qeq_bool_iff. ring.
Qed.

End CalculatorFacts.

(** *** The calculator on the sample employees *)
Module CalculatorExamples.
Import Calendar JS Examples.

(** C1: an employee whose start and end dates coincide has an accrual
    period of zero days; read on 1 June 2023 the accrued adjustment of
    such an employee is NaN, and so is the number of days available:
    the division by the empty period is not guarded. *)
Theorem accrued_adjustment_zero_span_NaN :
  let this := instance one_day_employee 20 0 0 (utc_date 2023 6 1) in
  is_accrued_allowance this = true
  /\ period_starts_at this = period_ends_at this
  /\ days_in_period this = 0
  /\ accrued_adjustment this = NaN
  /\ number_of_days_available_in_allowance this = NaN.
Proof. vm_compute. repeat split. Qed.

(** With a manual adjustment the same reading is an infinity. *)
Example accrued_adjustment_zero_span_infinite :
  accrued_adjustment (instance one_day_employee 20 2 0 (utc_date 2023 6 1)) = PosInf
  /\ accrued_adjustment (instance one_day_employee 20 2 0 (utc_date 2023 2 1)) = NegInf.
Proof. vm_compute. split; reflexivity. Qed.

Lemma nothing_available_before_start_year_witness :
  let this := instance mid_year_starter 28 0 0 (utc_date 2022 10 1) in
  year (start_date (user this)) > year (_now this)
  /\ number_of_days_available_in_allowance this = Num 0.
Proof.
  split.
  - vm_compute. reflexivity.
  - apply nothing_available_before_start_year. vm_compute. reflexivity.
Defined.

Lemma no_adjustment_when_employed_whole_year_witness :
  let this := instance long_serving 28 0 5 (utc_date 2023 6 1) in
  year (start_date (user this)) <> year (_now this)
  /\ end_date (user this) = None
  /\ employement_range_adjustment this = 0%Q.
Proof.
  split; [vm_compute; discriminate |]. split; [reflexivity |].
  apply no_adjustment_when_employed_whole_year.
  - vm_compute. discriminate.
  - left. reflexivity.
Defined.

Lemma available_is_nominal_minus_taken_witness :
  let this := instance long_serving 28 0 5 (utc_date 2023 6 1) in
  number_of_days_available_in_allowance this === Num (28 - 5)
  /\ total_number_of_days_in_allowance this
     = (nominal_allowance this + carry_over this + manual_adjustment this
        + employement_range_adjustment this)%Q.
Proof.
  intros this. split.
  - apply (available_is_nominal_minus_taken this).
    + vm_compute. reflexivity.
    + left. reflexivity.
    + reflexivity.
    + reflexivity.
    + reflexivity.
  - apply (available_is_nominal_minus_taken this).
Defined.

Lemma mid_year_start_adjustment_witness :
  let this := instance mid_year_starter 28 0 0 (utc_date 2023 12 31 + 43200000) in
  diff_days (period_ends_at this) (period_starts_at this) = 183
  /\ (employement_range_adjustment this == -14)%Q.
Proof.
  intros this.
  destruct (mid_year_start_adjustment this 2023 43200000) as (Hd & _ & Ha).
  - reflexivity.
  - reflexivity.
  - reflexivity.
  - unfold msPerDay. lia.
  - reflexivity.
  - split; [exact Hd | exact Ha].
Defined.

(** C3 as stated fails: the employee who joined on 1 December with a
    nominal allowance of 20 and a manual adjustment of -3 has -1 day to
    accrue over the 30 days to the end of the year; the accrued
    adjustment is 1 on 1 December and 0 on 31 December, so it decreases
    as [now] moves later in the period. *)
Lemma accrued_adjustment_not_monotone :
  let this := instance late_starter 20 (-3) 0 (utc_date 2023 12 1) in
  let later := with_now this (utc_date 2023 12 31) in
  is_accrued_allowance this = true
  /\ period_starts_at this <= _now this <= _now later
  /\ _now later <= period_ends_at this
  /\ accrued_adjustment this === Num 1
  /\ accrued_adjustment later === Num 0
  /\ less_equal (accrued_adjustment this) (accrued_adjustment later) = false.
Proof. vm_compute. repeat split; discriminate. Qed.

Lemma accrued_adjustment_monotone_witness :
  let this := instance accrual_starter 20 0 0 (utc_date 2023 6 1) in
  let at_end := with_now this (period_ends_at this) in
  days_in_period this <> 0
  /\ days_in_period at_end <> 0
  /\ accrued_adjustment at_end === Num 0
  /\ less_equal (accrued_adjustment this)
                (accrued_adjustment (with_now this (utc_date 2023 9 1))) = true.
Proof.
  intros this at_end.
  assert (H1 : days_in_period this <> 0) by (vm_compute; discriminate).
  assert (H2 : days_in_period at_end <> 0) by (vm_compute; discriminate).
  split; [exact H1 |]. split; [exact H2 |]. split.
  - refine (proj1 (accrued_adjustment_monotone at_end H2) _).
    vm_compute. reflexivity.
  - refine (proj2 (accrued_adjustment_monotone this H1) (utc_date 2023 9 1) _ _ _).
    + vm_compute. reflexivity.
    + vm_compute. discriminate.
    + vm_compute. discriminate.
Defined.


Lemma proration_bounds_witness :
  let this := instance mid_year_starter 28 0 0 (utc_date 2023 10 1) in
  (- nominal_allowance this <= employement_range_adjustment this)%Q
  /\ (employement_range_adjustment this <= 1 # 2)%Q.
Proof.
  intros this. refine (proration_bounds this _ _ _ _).
  - vm_compute. reflexivity.
  - vm_compute. discriminate.
  - intros e He. discriminate He.
  - vm_compute. discriminate.
Defined.

Lemma later_start_lower_adjustment_witness :
  let this := instance mid_year_starter 28 0 0 (utc_date 2023 10 1) in
  (employement_range_adjustment (with_start_date this (utc_date 2023 9 1))
   <= employement_range_adjustment this)%Q.
Proof.
  intros this. refine (later_start_lower_adjustment this (utc_date 2023 9 1) _ _ _ _).
  - vm_compute. discriminate.
  - vm_compute. reflexivity.
  - vm_compute. reflexivity.
  - vm_compute. discriminate.
Defined.

Lemma january_start_not_prorated_witness :
  let this := instance january_starter 28 0 0 (utc_date 2023 6 1) in
  (employement_range_adjustment this == 0)%Q.
Proof.
  intros this. refine (january_start_not_prorated this 2023 28 _ _ _ _ _).
  - reflexivity.
  - reflexivity.
  - vm_compute. reflexivity.
  - reflexivity.
  - lia.
Defined.

(** A whole allowance of 183 days loses a day to the rounding. *)
Example january_start_183_days :
  employement_range_adjustment (instance january_starter 183 0 0 (utc_date 2023 6 1))
  = (-1)%Q.
Proof. vm_compute. reflexivity. Qed.

Lemma left_in_earlier_year_nothing_left_witness :
  let this := instance former_employee 28 0 0 (utc_date 2023 6 1) in
  (nominal_allowance this + employement_range_adjustment this <= 0)%Q.
Proof.
  intros this.
  refine (left_in_earlier_year_nothing_left this (utc_date 2022 6 30) _ _ _).
  - reflexivity.
  - vm_compute. reflexivity.
  - vm_compute. discriminate.
Defined.

Lemma accrued_adjustment_half_days_witness :
  let this := instance accrual_starter 20 0 0 (utc_date 2023 6 1) in
  exists k : Z, accrued_adjustment this === Num (inject_Z k / 2).
Proof.
  intros this. refine (accrued_adjustment_half_days this _).
  vm_compute. discriminate.
Defined.

Lemma accrued_adjustment_at_period_start_witness :
  let this := instance accrual_starter 20 (3 # 2) 0 (utc_date 2023 3 1) in
  accrued_adjustment this === Num (- allowance_for_period this).
Proof.
  intros this. refine (accrued_adjustment_at_period_start this _ _ _ _).
  - vm_compute. reflexivity.
  - vm_compute. reflexivity.
  - vm_compute. discriminate.
  - vm_compute. reflexivity.
Defined.

Lemma accrued_adjustment_bounds_witness :
  let this := instance accrual_starter 20 (3 # 2) 0 (utc_date 2023 6 1) in
  less_equal (Num (- allowance_for_period this)) (accrued_adjustment this) = true
  /\ less_equal (accrued_adjustment this) (Num 0) = true.
Proof.
  intros this. refine (accrued_adjustment_bounds this _ _ _ _ _).
  - vm_compute. reflexivity.
  - vm_compute. reflexivity.
  - vm_compute. reflexivity.
  - vm_compute. discriminate.
  - vm_compute. split; discriminate.
Defined.

Lemma available_at_period_end_witness :
  let this := instance accrual_starter 20 0 4 (utc_date 2023 12 31 + 86399999) in
  number_of_days_available_in_allowance this
  === Num (total_number_of_days_in_allowance this
           - number_of_days_taken_from_allowance this).
Proof.
  intros this. refine (available_at_period_end this _ _ _).
  - vm_compute. discriminate.
  - vm_compute. reflexivity.
  - vm_compute. discriminate.
Defined.

End CalculatorExamples.

(** *** Loading the module *)
Section LoadFacts.
Context {Leaves : Type}.
Variable reload_with_leave_details : User Leaves -> Z -> result (User Leaves).
Variable promise_adjustment_and_carry_over_for_year :
  User Leaves -> Z -> result (numeric_arg * numeric_arg).
Variable calculate_number_of_days_taken_from_allowance :
  User Leaves -> Z -> result numeric_arg.



Lemma schema_now_not_built (release : Release) :
  schema_now release = Err (load_error release).
Proof. destruct release; reflexivity. Qed.







End LoadFacts.

(** *** A caller of the module with the sample employees *)
Module LoadExamples.
Import Calendar Examples.

(** With [forceNow] and a [now] of 24 December 2020. *)
Example forced_now_call (release : Release) :
  require_and_promise_allowance reload_ok adjustment_ok taken_ok release clock_2023
    (Some (promise_args (IsMoment 0%nat) long_serving_loaded (IsMoment 1%nat) (Some true)))
    two_moments
  = (Thrown (load_error release), two_moments).
Proof. destruct release; reflexivity. Qed.

(** With [my_leaves] undefined and a [year] of 5 May 2020, read in
    2023: no reload, and the [year] object as it was. *)
Example other_year_call (release : Release) :
  require_and_promise_allowance reload_ok adjustment_ok taken_ok release clock_2023
    (Some (promise_args (IsMoment 0%nat) long_serving NoDate None)) one_moment
  = (Thrown (load_error release),
     {| store := [utc_date 2020 5 5]; calls := [] |}).
Proof. destruct release; reflexivity. Qed.

(** Without [manual_adjustment]. *)
Example constructor_call (release : Release) :
  require_and_construct release (at_construction clock_2023)
    (Some args_without_adjustment) one_moment
  = (Err (load_error release), one_moment).
Proof. destruct release; reflexivity. Qed.

End LoadExamples.
